(** * allocation.h: file-backed read-only byte regions

    A shallow embedding of [src/allocation.h] (namespace [tflite]): the
    abstract [Allocation] interface and its two implementations,
    [MMAPAllocation] (a shared read-only mapping of a file) and
    [FileCopyAllocation] (a heap copy of a file).

    The constructors are sequences of calls into the operating system and the
    C++ runtime ([open], [fstat], [mmap], [fopen], [operator new[]], [fread],
    [fclose]).  Those services are modelled in [Module Posix] as functions on
    an explicit [World]; what the platform is free to decide (whether a call
    fails, which address it hands out, how many items a read delivers) is read
    from an [Oracle].  The target is LP64: [size_t] is an unsigned 64-bit
    integer, [off_t] a signed 64-bit one, pointers are 64-bit addresses. *)

From Stdlib Require Import ZArith String Ascii Bool Lia List.
From Stdlib Require Import Strings.Byte Lists.Finite.
Import ListNotations.

Local Open Scope Z_scope.

(** ** Machine data *)

Definition ptr := Z.

Definition nullptr : ptr := 0.

(** [MAP_FAILED] is [(void * ) -1] in <sys/mman.h>: the all-ones address. *)
Definition MAP_FAILED : ptr := Z.ones 64.

(** Conversion of an [off_t] (or any integer) to [size_t]: reduction modulo
    2^64, as in [buffer_size_bytes_ = sb.st_size]. *)
Definition to_size_t (z : Z) : Z := z mod 2 ^ 64.

(** Largest value of [off_t]; no file is longer. *)
Definition OFF_MAX : Z := 2 ^ 63 - 1.

(** ** Error sink *)

Module ErrorReporter.

(** One call [Report(format, arg)]. *)
Record Report := mkReport { r_format : string; r_arg : string }.

(** Modelled from the spec: [error_reporter.h] is not part of the sources.
    The sink has one operation, "report a formatted diagnostic message",
    taking a message template and substitution values.  [vformat] expands
    the single [%s] directive the templates of this header use. *)
Fixpoint vformat (fmt : string) (arg : string) : string :=
  match fmt with
  | EmptyString => EmptyString
  | String c rest =>
      match rest with
      | String c' rest' =>
          if (Ascii.eqb c "%" && Ascii.eqb c' "s")%bool
          then (arg ++ rest')%string
          else String c (vformat rest arg)
      | EmptyString => String c EmptyString
      end
  end.

Definition message (r : Report) : string := vformat (r_format r) (r_arg r).

End ErrorReporter.
Import ErrorReporter.

(** [contains s t]: [s] occurs in [t] as a contiguous substring. *)
Definition contains (s t : string) : Prop :=
  exists pre post : string, t = (pre ++ s ++ post)%string.

(** ** The operating system and the C++ runtime *)

Module Posix.

(** An entry of the descriptor table: the descriptor, the file it reads
    and the read offset. *)
Record OpenFile := mkOpenFile { of_fd : Z; of_path : string; of_pos : nat }.

(** A shared, read-only, file-backed mapping at offset 0. *)
Record Mapping := mkMapping { m_addr : ptr; m_len : Z; m_path : string }.

(** A heap block obtained from [operator new[]]; a cell is [None] until it
    has been written. *)
Record Block := mkBlock { b_addr : ptr; b_cells : list (option byte) }.

Record World := mkWorld {
  w_fs : list (string * list byte);     (* regular files, by path *)
  w_fds : list OpenFile;                (* open descriptors *)
  w_maps : list Mapping;                (* live mappings *)
  w_heap : list Block;                  (* live heap blocks *)
  w_log : list Report                   (* what the error sink received *)
}.

(** What the platform decides during one construction. *)
Record Oracle := mkOracle {
  o_open_err : bool;          (* open/fopen refuses an existing file *)
  o_fstat_err : bool;         (* fstat fails *)
  o_stack : Z;                (* value found in the uninitialised [sb.st_size] *)
  o_mmap : option positive;   (* page mmap would pick; None: refused *)
  o_new : option positive;    (* address new[] would pick; None: refused *)
  o_fread : nat               (* items the stream can deliver *)
}.

Definition set_fds (w : World) (t : list OpenFile) : World :=
  mkWorld (w_fs w) t (w_maps w) (w_heap w) (w_log w).
Definition set_maps (w : World) (m : list Mapping) : World :=
  mkWorld (w_fs w) (w_fds w) m (w_heap w) (w_log w).
Definition set_heap (w : World) (h : list Block) : World :=
  mkWorld (w_fs w) (w_fds w) (w_maps w) h (w_log w).
Definition set_log (w : World) (l : list Report) : World :=
  mkWorld (w_fs w) (w_fds w) (w_maps w) (w_heap w) l.

Fixpoint lookup_path (fs : list (string * list byte)) (path : string)
  : option (list byte) :=
  match fs with
  | [] => None
  | (p, data) :: fs' =>
      if String.eqb p path then Some data else lookup_path fs' path
  end.

(** The content of the file at [path], if there is one. *)
Definition file_at (w : World) (path : string) : option (list byte) :=
  lookup_path (w_fs w) path.

(** [error_reporter_->Report(format, arg)] *)
Definition Report_ (format arg : string) (w : World) : World :=
  set_log w (w_log w ++ [mkReport format arg]).

(** *** Descriptors *)

Definition fd_in_use (t : list OpenFile) (fd : Z) : bool :=
  existsb (fun f => of_fd f =? fd) t.

Fixpoint first_unused (t : list OpenFile) (fuel : nat) (fd : Z) : Z :=
  match fuel with
  | O => fd
  | S k => if fd_in_use t fd then first_unused t k (fd + 1) else fd
  end.

(** POSIX hands out the lowest descriptor not in use. *)
Definition lowest_unused (t : list OpenFile) : Z :=
  first_unused t (length t) 0.

Definition lookup_fd (t : list OpenFile) (fd : Z) : option OpenFile :=
  find (fun f => of_fd f =? fd) t.

Fixpoint drop_fd (fd : Z) (t : list OpenFile) : list OpenFile :=
  match t with
  | [] => []
  | f :: t' => if of_fd f =? fd then t' else f :: drop_fd fd t'
  end.

(** [open(path, O_RDONLY)]: the new descriptor, or -1. *)
Definition open (o : Oracle) (path : string) (w : World) : Z * World :=
  match file_at w path with
  | None => (-1, w)
  | Some _ =>
      if o_open_err o then (-1, w)
      else
        let fd := lowest_unused (w_fds w) in
        (fd, set_fds w (mkOpenFile fd path 0 :: w_fds w))
  end.

(** [close(fd)] *)
Definition close (fd : Z) (w : World) : World :=
  set_fds w (drop_fd fd (w_fds w)).

(** [fstat(fd, &sb)], as far as [sb.st_size] goes: the return code and the
    content of [sb.st_size] after the call.  A failed call leaves [sb] as it
    found it. *)
Definition fstat (o : Oracle) (fd : Z) (sb_st_size : Z) (w : World) : Z * Z :=
  match lookup_fd (w_fds w) fd with
  | None => (-1, sb_st_size)
  | Some f =>
      if o_fstat_err o then (-1, sb_st_size)
      else
        match file_at w (of_path f) with
        | Some data => (0, Z.of_nat (length data))
        | None => (-1, sb_st_size)
        end
  end.

(** *** Mappings *)

Definition PAGE : Z := 4096.

(** An address is in use when a heap block or a mapping starts there. *)
Definition addr_in_use (w : World) (a : ptr) : bool :=
  existsb (fun b => b_addr b =? a) (w_heap w) ||
  existsb (fun m => m_addr m =? a) (w_maps w).

(** Where [mmap] places a mapping: at the page the oracle picks, provided
    nothing is there yet.  The address is a multiple of [PAGE] and not 0. *)
Definition mmap_address (o : Oracle) (w : World) : option ptr :=
  match o_mmap o with
  | None => None
  | Some page =>
      if addr_in_use w (PAGE * Z.pos page) then None
      else Some (PAGE * Z.pos page)
  end.

(** [mmap(nullptr, len, PROT_READ, MAP_SHARED, fd, 0)]: the address of the
    new mapping, or [MAP_FAILED].  A zero length is refused (EINVAL). *)
Definition mmap (o : Oracle) (len : Z) (fd : Z) (w : World) : ptr * World :=
  if len =? 0 then (MAP_FAILED, w)
  else
    match lookup_fd (w_fds w) fd, mmap_address o w with
    | Some f, Some a =>
        (a, set_maps w (mkMapping a len (of_path f) :: w_maps w))
    | _, _ => (MAP_FAILED, w)
    end.

Fixpoint drop_map (a : ptr) (l : list Mapping) : list Mapping :=
  match l with
  | [] => []
  | m :: l' => if m_addr m =? a then l' else m :: drop_map a l'
  end.

(** [munmap(addr, len)] of a whole mapping. *)
Definition munmap (a : ptr) (w : World) : World :=
  set_maps w (drop_map a (w_maps w)).

(** *** Heap *)

Inductive exn := bad_alloc.

(** Where [operator new[]] places a block: at the address the oracle
    picks, provided nothing is there yet.  The address is not null. *)
Definition new_address (o : Oracle) (w : World) : option ptr :=
  match o_new o with
  | None => None
  | Some a => if addr_in_use w (Z.pos a) then None else Some (Z.pos a)
  end.

(** [new char[n]]: a fresh block of [n] unwritten cells, or the exception
    [std::bad_alloc].  The plain (throwing) form of [new] never yields a
    null pointer. *)
Definition new_array (o : Oracle) (n : Z) (w : World) : exn + ptr * World :=
  match new_address o w with
  | None => inl bad_alloc
  | Some a =>
      inr (a, set_heap w (mkBlock a (repeat None (Z.to_nat n)) :: w_heap w))
  end.

Fixpoint drop_block (a : ptr) (h : list Block) : list Block :=
  match h with
  | [] => []
  | b :: h' => if b_addr b =? a then h' else b :: drop_block a h'
  end.

(** [delete[] p]; deleting the null pointer does nothing. *)
Definition delete_array (p : ptr) (w : World) : World :=
  if p =? nullptr then w else set_heap w (drop_block p (w_heap w)).

Fixpoint store (p : ptr) (bs : list byte) (h : list Block) : list Block :=
  match h with
  | [] => []
  | b :: h' =>
      if b_addr b =? p
      then mkBlock p (map Some bs ++ skipn (length bs) (b_cells b)) :: h'
      else b :: store p bs h'
  end.

(** *** Streams *)

(** A [FILE] object; a [FILE*] is an [option FILE], [None] the null
    pointer. *)
Record FILE := mkFILE { fileno : Z }.

(** [fopen(path, "rb")] *)
Definition fopen (o : Oracle) (path : string) (w : World)
  : option FILE * World :=
  let '(fd, w) := open o path w in
  if fd =? -1 then (None, w) else (Some (mkFILE fd), w).

(** [fclose(file)] *)
Definition fclose (file : FILE) (w : World) : World :=
  close (fileno file) w.

Fixpoint advance (fd : Z) (k : nat) (t : list OpenFile) : list OpenFile :=
  match t with
  | [] => []
  | f :: t' =>
      if of_fd f =? fd
      then mkOpenFile (of_fd f) (of_path f) (of_pos f + k) :: t'
      else f :: advance fd k t'
  end.

(** [fread(buf, sizeof(char), n, file)]: copies the items delivered to
    [buf] and returns their number, which is at most [n], at most what is
    left of the file and at most what the stream delivers. *)
Definition fread (o : Oracle) (buf : ptr) (n : Z) (file : FILE) (w : World)
  : Z * World :=
  match lookup_fd (w_fds w) (fileno file) with
  | None => (0, w)
  | Some f =>
      match file_at w (of_path f) with
      | None => (0, w)
      | Some data =>
          let rest := skipn (of_pos f) data in
          let k := Nat.min (Nat.min (Z.to_nat n) (o_fread o)) (length rest) in
          (Z.of_nat k,
           set_heap (set_fds w (advance (fileno file) k (w_fds w)))
                    (store buf (firstn k rest) (w_heap w)))
      end
  end.

(** *** Reading memory *)

Fixpoint defined (cells : list (option byte)) : option (list byte) :=
  match cells with
  | [] => Some []
  | None :: _ => None
  | Some b :: cells' =>
      match defined cells' with
      | Some bs => Some (b :: bs)
      | None => None
      end
  end.

(** [load w p n]: the [n] bytes a reader finds at [p], when [p] is the start
    of a heap block or of a mapping and all [n] bytes are there. *)
Definition load (w : World) (p : ptr) (n : Z) : option (list byte) :=
  match find (fun b => b_addr b =? p) (w_heap w) with
  | Some b =>
      if Z.of_nat (length (b_cells b)) <? n then None
      else defined (firstn (Z.to_nat n) (b_cells b))
  | None =>
      match find (fun m => m_addr m =? p) (w_maps w) with
      | None => None
      | Some m =>
          match file_at w (m_path m) with
          | None => None
          | Some data =>
              if (m_len m <? n) || (Z.of_nat (length data) <? n) then None
              else Some (firstn (Z.to_nat n) data)
          end
      end
  end.

End Posix.
Import Posix.

Local Open Scope string_scope.
Local Open Scope Z_scope.

(** ** class Allocation

    The abstract interface: three pure virtual accessors.  The member
    [error_reporter_] points to the sink, which lives in the [World]
    ([w_log]); an object does not own it. *)
Class Allocation (A : Type) := {
  base : A -> ptr;    (* Base pointer of this allocation *)
  bytes : A -> Z;     (* Size in bytes of the allocation *)
  valid : A -> bool   (* Whether the allocation is valid *)
}.

(** ** class MMAPAllocation *)

Module MMAPAllocation.

Record t := mk {
  mmap_fd_ : Z;               (* int, default member initialiser -1 *)
  mmapped_buffer_ : ptr;      (* const void*  *)
  buffer_size_bytes_ : Z      (* size_t, default member initialiser 0 *)
}.

(** [MMAPAllocation(const char* filename, ErrorReporter* error_reporter)] *)
Definition ctor (o : Oracle) (filename : string) (w : World) : t * World :=
  let this := mk (-1) MAP_FAILED 0 in
  let '(fd, w) := open o filename w in
  let this := mk fd (mmapped_buffer_ this) (buffer_size_bytes_ this) in
  if mmap_fd_ this =? -1 then
    (this, Report_ "Could not open '%s'." filename w)
  else
    (* struct stat sb; fstat(mmap_fd_, &sb);  -- the return code is dropped *)
    let '(_, sb_st_size) := fstat o (mmap_fd_ this) (o_stack o) w in
    let this :=
      mk (mmap_fd_ this) (mmapped_buffer_ this) (to_size_t sb_st_size) in
    let '(p, w) := mmap o (buffer_size_bytes_ this) (mmap_fd_ this) w in
    let this := mk (mmap_fd_ this) p (buffer_size_bytes_ this) in
    if mmapped_buffer_ this =? MAP_FAILED then
      (this, Report_ "Mmap of '%s' failed." filename w)
    else
      (this, w).

(** The class declares no destructor (its declaration is commented out), so
    the implicit one runs: the three members are scalars and [~Allocation()]
    has an empty body. *)
Definition dtor (this : t) (w : World) : World := w.

Definition IsSupported : bool := true.

#[global] Instance allocation : Allocation t := {
  base this := mmapped_buffer_ this;
  bytes this := buffer_size_bytes_ this;
  valid this := negb (mmapped_buffer_ this =? MAP_FAILED)
}.

End MMAPAllocation.

(** ** class FileCopyAllocation *)

Module FileCopyAllocation.

Record t := mk {
  copied_buffer_ : ptr;       (* std::unique_ptr<const char[]>, initially null *)
  buffer_size_bytes_ : Z      (* size_t, default member initialiser 0 *)
}.

(** A constructor call either completes, leaving an object, or is left by
    an exception, leaving none. *)
Inductive outcome :=
| Constructed (this : t) (w : World)
| Thrown (e : exn) (w : World).

Definition world_of (r : outcome) : World :=
  match r with Constructed _ w => w | Thrown _ w => w end.

(** Destructor of the local [std::unique_ptr<FILE, decltype(&fclose)>]:
    the deleter runs on a non-null pointer only. *)
Definition file_scope_exit (file : option FILE) (w : World) : World :=
  match file with Some f => fclose f w | None => w end.

(** Destructor of the local [std::unique_ptr<char[]>]. *)
Definition buffer_scope_exit (buffer : ptr) (w : World) : World :=
  delete_array buffer w.

(** [FileCopyAllocation(const char* filename, ErrorReporter* error_reporter)].
    Locals are destroyed in reverse order of declaration on every way out:
    [buffer] first, then [file]. *)
Definition ctor (o : Oracle) (filename : string) (w : World) : outcome :=
  let this := mk nullptr 0 in
  let '(file, w) := fopen o filename w in
  match file with
  | None =>
      let w := Report_ "Could not open '%s'." filename w in
      Constructed this (file_scope_exit file w)
  | Some f =>
      let '(rc, sb_st_size) := fstat o (fileno f) (o_stack o) w in
      if negb (rc =? 0) then
        let w := Report_ "Failed to get file size of '%s'." filename w in
        Constructed this (file_scope_exit file w)
      else
        let this := mk (copied_buffer_ this) (to_size_t sb_st_size) in
        match new_array o (buffer_size_bytes_ this) w with
        | inl e =>
            (* the exception leaves the constructor; unwinding destroys
               [file], then the members, of which [copied_buffer_] is null *)
            Thrown e (file_scope_exit file w)
        | inr (buffer, w) =>
            if buffer =? nullptr then
              let w :=
                Report_ "Malloc of buffer to hold copy of '%s' failed."
                        filename w in
              Constructed this (file_scope_exit file (buffer_scope_exit buffer w))
            else
              let '(bytes_read, w) :=
                fread o buffer (buffer_size_bytes_ this) f w in
              if negb (bytes_read =? buffer_size_bytes_ this) then
                let w :=
                  Report_ "Read of '%s' failed (too few bytes read)."
                          filename w in
                Constructed this (file_scope_exit file (buffer_scope_exit buffer w))
              else
                (* copied_buffer_.reset(buffer.release()): [buffer] is null now *)
                let this := mk buffer (buffer_size_bytes_ this) in
                Constructed this (file_scope_exit file (buffer_scope_exit nullptr w))
        end
  end.

(** [~FileCopyAllocation(){}], then the member [copied_buffer_] releases
    what it owns. *)
Definition dtor (this : t) (w : World) : World :=
  delete_array (copied_buffer_ this) w.

#[global] Instance allocation : Allocation t := {
  base this := copied_buffer_ this;
  bytes this := buffer_size_bytes_ this;
  valid this := negb (copied_buffer_ this =? nullptr)
}.

End FileCopyAllocation.

(** ** compatibility.h: check macros

    [TFLITE_DCHECK*] expand to [(cond) ? (void)0 : assert(false)] and
    [TFLITE_CHECK*] to [(cond) ? (void)0 : abort()].  The operands are two
    values of one integer type, so the built-in comparison is the comparison
    of their values.  [assert] is the one of <cassert>: with [NDEBUG] defined
    it expands to [((void)0)]. *)

Module Compatibility.

(** How the statement that a macro expands to ends. *)
Inductive check_result :=
| Passed          (* (void)0: execution goes on *)
| AssertFailed    (* assert(false) in a build without NDEBUG *)
| Aborted.        (* abort() *)

(** [assert(false)] *)
Definition assert_false (ndebug : bool) : check_result :=
  if ndebug then Passed else AssertFailed.

Definition TFLITE_DCHECK (ndebug : bool) (condition : bool) : check_result :=
  if condition then Passed else assert_false ndebug.
Definition TFLITE_DCHECK_EQ (ndebug : bool) (x y : Z) : check_result :=
  if x =? y then Passed else assert_false ndebug.
Definition TFLITE_DCHECK_NE (ndebug : bool) (x y : Z) : check_result :=
  if negb (x =? y) then Passed else assert_false ndebug.
Definition TFLITE_DCHECK_GE (ndebug : bool) (x y : Z) : check_result :=
  if x >=? y then Passed else assert_false ndebug.
Definition TFLITE_DCHECK_GT (ndebug : bool) (x y : Z) : check_result :=
  if x >? y then Passed else assert_false ndebug.
Definition TFLITE_DCHECK_LE (ndebug : bool) (x y : Z) : check_result :=
  if x <=? y then Passed else assert_false ndebug.
Definition TFLITE_DCHECK_LT (ndebug : bool) (x y : Z) : check_result :=
  if x <? y then Passed else assert_false ndebug.

Definition TFLITE_CHECK (condition : bool) : check_result :=
  if condition then Passed else Aborted.
Definition TFLITE_CHECK_EQ (x y : Z) : check_result :=
  if x =? y then Passed else Aborted.
Definition TFLITE_CHECK_NE (x y : Z) : check_result :=
  if negb (x =? y) then Passed else Aborted.
Definition TFLITE_CHECK_GE (x y : Z) : check_result :=
  if x >=? y then Passed else Aborted.
Definition TFLITE_CHECK_GT (x y : Z) : check_result :=
  if x >? y then Passed else Aborted.
Definition TFLITE_CHECK_LE (x y : Z) : check_result :=
  if x <=? y then Passed else Aborted.
Definition TFLITE_CHECK_LT (x y : Z) : check_result :=
  if x <? y then Passed else Aborted.

End Compatibility.

(** ** Vocabulary of the statements *)

(** A path that [open] and [fopen] turn down: no such file, or the platform
    refuses. *)
Definition unopenable (o : Oracle) (w : World) (path : string) : Prop :=
  file_at w path = None \/ o_open_err o = true.

(** The world right after a successful [open] or [fopen] of [path]. *)
Definition opened (w : World) (path : string) : World :=
  set_fds w (mkOpenFile (lowest_unused (w_fds w)) path 0 :: w_fds w).

(** [reports_once w w' msg]: between [w] and [w'] the error sink received
    exactly one report, and it reads [msg]. *)
Definition reports_once (w w' : World) (msg : string) : Prop :=
  exists r : Report, w_log w' = (w_log w ++ [r])%list /\ message r = msg.

(** What [fread] leaves in a fresh block of [n] cells after delivering [bs]. *)
Definition filled (bs : list byte) (n : Z) : list (option byte) :=
  (map Some bs ++ skipn (length bs) (repeat None (Z.to_nat n)))%list.

(** Number of items the read of the FileCopyAllocation constructor delivers,
    from the start of the file. *)
Definition delivered (o : Oracle) (n : Z) (data : list byte) : nat :=
  Nat.min (Nat.min (Z.to_nat n) (o_fread o)) (length data).

(** What the MMAPAllocation constructor finds in [sb.st_size] after its
    unchecked [fstat]: the length of the file, or what the stack held when
    the call failed. *)
Definition st_size_seen (o : Oracle) (data : list byte) : Z :=
  if o_fstat_err o then o_stack o else Z.of_nat (length data).

(** ** Sample worlds and oracles *)

Definition model_bin : list byte := [x74; x66; x6c]%byte.

Definition sample_fs : list (string * list byte) :=
  [("model.bin", model_bin); ("empty.bin", [])].

(** Two files, nothing open, nothing mapped, an empty heap, a silent sink. *)
Definition boot : World := mkWorld sample_fs [] [] [] [].

(** Nothing fails. *)
Definition fair : Oracle :=
  mkOracle false false 0 (Some 16%positive) (Some 4242%positive) 1000.

(** The stream delivers two bytes and then stops. *)
Definition truncated : Oracle :=
  mkOracle false false 0 (Some 16%positive) (Some 4242%positive) 2.

(** The heap is exhausted. *)
Definition starved : Oracle :=
  mkOracle false false 0 (Some 16%positive) None 1000.

(** [fstat] fails and the stack slot of [sb.st_size] happens to hold 4096. *)
Definition stale : Oracle :=
  mkOracle false true 4096 (Some 16%positive) (Some 4242%positive) 1000.

(** The kernel refuses the mapping. *)
Definition unmappable : Oracle :=
  mkOracle false false 0 None (Some 4242%positive) 1000.

(** Nothing fails, and the buffer goes to another address than under [fair]. *)
Definition fair_elsewhere : Oracle :=
  mkOracle false false 0 (Some 16%positive) (Some 5000%positive) 1000.

(** * Properties *)

Arguments to_size_t : simpl never.

(** Unfolds the platform calls of a constructor path and simplifies. *)
Ltac crunch :=
  repeat (progress
            (unfold FileCopyAllocation.file_scope_exit,
               FileCopyAllocation.buffer_scope_exit,
               fclose, close, munmap, delete_array, Report_, opened,
               set_fds, set_log, set_heap, set_maps;
             simpl; rewrite ?Z.eqb_refl, ?Pos.eqb_refl)).

(** ** Lists, strings, sizes *)

Lemma cons_neq_self {A : Type} (x : A) (l : list A) : l <> x :: l.
Proof.
  intros H. apply (f_equal (@length A)) in H. simpl in H. lia.
Qed.

Lemma find_existsb_false {A : Type} (f : A -> bool) (l : list A) :
  existsb f l = false -> find f l = None.
Proof.
  induction l as [|x l IH]; simpl; [reflexivity |].
  destruct (f x); [discriminate | exact IH].
Qed.

Lemma defined_map_Some (bs : list byte) : defined (map Some bs) = Some bs.
Proof. induction bs as [|b bs IH]; simpl; [| rewrite IH]; reflexivity. Qed.

Lemma filled_all (data : list byte) :
  filled data (Z.of_nat (length data)) = map Some data.
Proof.
  unfold filled. rewrite Nat2Z.id, skipn_all2, app_nil_r; [reflexivity |].
  now rewrite repeat_length.
Qed.

Lemma contains_middle (pre s post : string) : contains s (pre ++ s ++ post).
Proof. now exists pre, post. Qed.

Lemma to_size_t_file_length (data : list byte) :
  Z.of_nat (length data) <= OFF_MAX ->
  to_size_t (Z.of_nat (length data)) = Z.of_nat (length data).
Proof.
  unfold OFF_MAX, to_size_t. intros H. apply Z.mod_small. lia.
Qed.

Lemma Report_once (format arg : string) (w : World) :
  reports_once w (Report_ format arg w) (vformat format arg).
Proof. now exists (mkReport format arg). Qed.

(** ** Descriptors are handed out fresh *)

Section Descriptors.

Variable t : list OpenFile.

Lemma first_unused_ge (fuel : nat) :
  forall fd, fd <= first_unused t fuel fd.
Proof.
  induction fuel as [|k IH]; intros fd; simpl.
  - lia.
  - destruct (fd_in_use t fd); [specialize (IH (fd + 1)) |]; lia.
Qed.

Lemma lowest_unused_nonneg : 0 <= lowest_unused t.
Proof. apply first_unused_ge. Qed.

Lemma lowest_unused_valid : (lowest_unused t =? -1) = false.
Proof. apply Z.eqb_neq. pose proof lowest_unused_nonneg. lia. Qed.

Lemma fd_in_use_In (fd : Z) : fd_in_use t fd = true -> In fd (map of_fd t).
Proof.
  unfold fd_in_use. intros H. apply existsb_exists in H as [f [Hin Heq]].
  apply Z.eqb_eq in Heq. subst fd. now apply in_map.
Qed.

(** The search stops at a free descriptor, or has seen [fuel] busy ones. *)
Lemma first_unused_spec (fuel : nat) :
  forall fd,
    fd_in_use t (first_unused t fuel fd) = false \/
    (first_unused t fuel fd = fd + Z.of_nat fuel /\
     forall i, fd <= i < fd + Z.of_nat fuel -> fd_in_use t i = true).
Proof.
  induction fuel as [|k IH]; intros fd.
  - right. split; [simpl; lia | intros i Hi; lia].
  - cbn [first_unused]. destruct (fd_in_use t fd) eqn:Hfd.
    + destruct (IH (fd + 1)) as [H | [Heq Hall]]; [now left |].
      right. split; [lia |]. intros i Hi.
      destruct (Z.eq_dec i fd) as [-> | Hne]; [assumption | apply Hall; lia].
    + now left.
Qed.

(** A table of [n] entries cannot keep the [n + 1] descriptors [0..n] busy. *)
Lemma lowest_unused_fresh : fd_in_use t (lowest_unused t) = false.
Proof.
  unfold lowest_unused.
  destruct (first_unused_spec (length t) 0) as [H | [Heq Hall]]; [exact H |].
  rewrite Heq.
  destruct (fd_in_use t (0 + Z.of_nat (length t))) eqn:Hlast; [| reflexivity].
  exfalso.
  assert (Hincl : incl (map Z.of_nat (seq 0 (S (length t)))) (map of_fd t)).
  { intros i Hi. apply in_map_iff in Hi as [n [<- Hn]]. apply in_seq in Hn.
    apply fd_in_use_In.
    destruct (Nat.eq_dec n (length t)) as [-> | Hne]; [exact Hlast |].
    apply Hall. lia. }
  assert (Hnd : NoDup (map Z.of_nat (seq 0 (S (length t))))).
  { apply Injective_map_NoDup; [| apply seq_NoDup].
    intros x y Hxy. lia. }
  pose proof (NoDup_incl_length Hnd Hincl) as Hlen.
  rewrite !length_map, length_seq in Hlen. lia.
Qed.

End Descriptors.

(** ** Addresses are handed out fresh and are no sentinel *)

Lemma new_address_not_null o w a :
  new_address o w = Some a -> (a =? nullptr) = false.
Proof.
  unfold new_address. destruct (o_new o) as [p|]; [| discriminate].
  destruct (addr_in_use w (Z.pos p)); [discriminate |].
  now intros [= <-].
Qed.

Lemma mmap_address_real o w a :
  mmap_address o w = Some a -> (a =? MAP_FAILED) = false.
Proof.
  unfold mmap_address. destruct (o_mmap o) as [page|]; [| discriminate].
  destruct (addr_in_use w (PAGE * Z.pos page)); [discriminate |].
  intros [= <-]. apply Z.eqb_neq. unfold PAGE, MAP_FAILED.
  change (Z.ones 64) with 18446744073709551615. lia.
Qed.

Lemma mmap_address_fresh o w a :
  mmap_address o w = Some a -> addr_in_use w a = false.
Proof.
  unfold mmap_address. destruct (o_mmap o) as [page|]; [| discriminate].
  destruct (addr_in_use w (PAGE * Z.pos page)) eqn:H; [discriminate |].
  now intros [= <-].
Qed.

(** ** The constructors, path by path *)

Section Refused.

Variables (o : Oracle) (w : World) (path : string).
Hypothesis Hu : unopenable o w path.

Lemma open_refused : open o path w = (-1, w).
Proof.
  unfold open. destruct Hu as [H | H].
  - now rewrite H.
  - rewrite H. now destruct (file_at w path).
Qed.

Lemma fopen_refused : fopen o path w = (None, w).
Proof. unfold fopen. now rewrite open_refused. Qed.

Lemma MMAP_ctor_refused :
  MMAPAllocation.ctor o path w =
  (MMAPAllocation.mk (-1) MAP_FAILED 0, Report_ "Could not open '%s'." path w).
Proof. unfold MMAPAllocation.ctor. now rewrite open_refused. Qed.

Lemma FileCopy_ctor_refused :
  FileCopyAllocation.ctor o path w =
  FileCopyAllocation.Constructed
    (FileCopyAllocation.mk nullptr 0) (Report_ "Could not open '%s'." path w).
Proof. unfold FileCopyAllocation.ctor. now rewrite fopen_refused. Qed.

End Refused.

Section Granted.

Variables (o : Oracle) (w : World) (path : string) (data : list byte).
Hypothesis Hf : file_at w path = Some data.
Hypothesis He : o_open_err o = false.

Lemma granted_not_unopenable : ~ unopenable o w path.
Proof. intros [H | H]; congruence. Qed.

Lemma open_granted : open o path w = (lowest_unused (w_fds w), opened w path).
Proof. unfold open. now rewrite Hf, He. Qed.

Lemma fopen_granted :
  fopen o path w = (Some (mkFILE (lowest_unused (w_fds w))), opened w path).
Proof. unfold fopen. now rewrite open_granted, lowest_unused_valid. Qed.

Lemma fstat_opened (sb : Z) :
  fstat o (lowest_unused (w_fds w)) sb (opened w path) =
  if o_fstat_err o then (-1, sb) else (0, Z.of_nat (length data)).
Proof.
  unfold fstat, opened, lookup_fd. unfold file_at in *. simpl.
  rewrite Z.eqb_refl. simpl. now rewrite Hf.
Qed.

(** The MMAPAllocation constructor once the file is open: the size is
    whatever [sb.st_size] holds, and only [mmap] decides the outcome. *)
Lemma MMAP_ctor_granted :
  MMAPAllocation.ctor o path w =
  let fd := lowest_unused (w_fds w) in
  let n := to_size_t (st_size_seen o data) in
  match (if n =? 0 then None else mmap_address o w) with
  | Some a =>
      (MMAPAllocation.mk fd a n,
       set_maps (opened w path) (mkMapping a n path :: w_maps w))
  | None =>
      (MMAPAllocation.mk fd MAP_FAILED n,
       Report_ "Mmap of '%s' failed." path (opened w path))
  end.
Proof.
  unfold MMAPAllocation.ctor. rewrite open_granted.
  cbn [MMAPAllocation.mmap_fd_ MMAPAllocation.mmapped_buffer_
       MMAPAllocation.buffer_size_bytes_].
  rewrite lowest_unused_valid, fstat_opened.
  unfold mmap, st_size_seen.
  change (mmap_address o (opened w path)) with (mmap_address o w).
  destruct (o_fstat_err o);
    cbn [MMAPAllocation.mmap_fd_ MMAPAllocation.mmapped_buffer_
         MMAPAllocation.buffer_size_bytes_];
    (destruct (to_size_t _ =? 0); [reflexivity |]);
    unfold lookup_fd, opened; cbn [w_fds set_fds find of_fd of_path];
    rewrite Z.eqb_refl;
    (destruct (mmap_address o w) as [a|] eqn:Ha;
     [ cbn [MMAPAllocation.mmap_fd_ MMAPAllocation.mmapped_buffer_
            MMAPAllocation.buffer_size_bytes_];
       now rewrite (mmap_address_real _ _ _ Ha)
     | reflexivity ]).
Qed.

(** The FileCopyAllocation constructor once the file is open.  The branch
    that reports ["Malloc of buffer to hold copy of '%s' failed."] does not
    occur: it is guarded by a null test on the result of a throwing [new]. *)
Lemma FileCopy_ctor_granted :
  FileCopyAllocation.ctor o path w =
  if o_fstat_err o then
    FileCopyAllocation.Constructed
      (FileCopyAllocation.mk nullptr 0)
      (Report_ "Failed to get file size of '%s'." path w)
  else
    let n := to_size_t (Z.of_nat (length data)) in
    match new_address o w with
    | None => FileCopyAllocation.Thrown bad_alloc w
    | Some a =>
        let k := delivered o n data in
        if negb (Z.of_nat k =? n) then
          FileCopyAllocation.Constructed
            (FileCopyAllocation.mk nullptr n)
            (Report_ "Read of '%s' failed (too few bytes read)." path w)
        else
          FileCopyAllocation.Constructed
            (FileCopyAllocation.mk a n)
            (set_heap w (mkBlock a (filled (firstn k data) n) :: w_heap w))
    end.
Proof.
  unfold FileCopyAllocation.ctor. rewrite fopen_granted, fstat_opened.
  destruct (o_fstat_err o).
  - destruct w. now crunch.
  - cbn [negb Z.eqb fileno FileCopyAllocation.buffer_size_bytes_
         FileCopyAllocation.copied_buffer_].
    unfold new_array.
    change (new_address o (opened w path)) with (new_address o w).
    destruct (new_address o w) as [a|] eqn:Ha.
    + rewrite (new_address_not_null _ _ _ Ha).
      clear He. destruct w as [fs fds maps heap log].
      unfold file_at in Hf. simpl in Hf.
      unfold fread, lookup_fd, file_at. crunch. rewrite Hf. crunch.
      fold (delivered o (to_size_t (Z.of_nat (length data))) data).
      rewrite (new_address_not_null _ _ _ Ha).
      destruct (Z.of_nat _ =? _); now crunch.
    + destruct w. now crunch.
Qed.

End Granted.

Lemma open_cases o w path :
  unopenable o w path \/
  (exists data, file_at w path = Some data /\ o_open_err o = false).
Proof.
  destruct (file_at w path) as [data|] eqn:Hf; [| left; now left].
  destruct (o_open_err o) eqn:He; [left; now right |].
  right. now exists data.
Qed.

(** ** Opening fails *)

(** C3: over a path that cannot be opened, either constructor leaves an
    object with [valid() == false] and sends exactly one report to the error
    sink, ["Could not open '<path>'."], which contains the path. *)
Theorem C3_unopenable_path_reports_once (o : Oracle) (w : World) (path : string) :
  unopenable o w path ->
  (exists this w',
      MMAPAllocation.ctor o path w = (this, w') /\
      valid this = false /\
      reports_once w w' ("Could not open '" ++ path ++ "'.") /\
      contains path ("Could not open '" ++ path ++ "'.")) /\
  (exists this w',
      FileCopyAllocation.ctor o path w = FileCopyAllocation.Constructed this w' /\
      valid this = false /\
      reports_once w w' ("Could not open '" ++ path ++ "'.") /\
      contains path ("Could not open '" ++ path ++ "'.")).
Proof.
  intros H. split.
  - rewrite (MMAP_ctor_refused _ _ _ H).
    eexists _, _. split; [reflexivity |]. split; [reflexivity |].
    split; [apply Report_once |].
    exact (contains_middle "Could not open '" path "'.").
  - rewrite (FileCopy_ctor_refused _ _ _ H).
    eexists _, _. split; [reflexivity |]. split; [reflexivity |].
    split; [apply Report_once |].
    exact (contains_middle "Could not open '" path "'.").
Qed.

Lemma C3_unopenable_path_witness :
  unopenable fair boot "nope" /\
  (exists this w',
      MMAPAllocation.ctor fair "nope" boot = (this, w') /\
      valid this = false /\
      reports_once boot w' "Could not open 'nope'." /\
      contains "nope" "Could not open 'nope'.") /\
  (exists this w',
      FileCopyAllocation.ctor fair "nope" boot =
        FileCopyAllocation.Constructed this w' /\
      valid this = false /\
      reports_once boot w' "Could not open 'nope'." /\
      contains "nope" "Could not open 'nope'.").
Proof.
  assert (H : unopenable fair boot "nope") by (left; reflexivity).
  split; [exact H | exact (C3_unopenable_path_reports_once fair boot "nope" H)].
Defined.

(** ** MMAPAllocation *)

(** C7: after the MMAPAllocation constructor, [valid()] is true exactly when
    the constructor created a mapping and stored its address, which is not
    [MAP_FAILED], in [mmapped_buffer_]; and when the open step fails,
    [bytes()] is 0. *)
Theorem C7_valid_iff_mapping_acquired (o : Oracle) (w : World) (path : string) :
  let this := fst (MMAPAllocation.ctor o path w) in
  let w' := snd (MMAPAllocation.ctor o path w) in
  (valid this = true <->
   exists m : Mapping,
     w_maps w' = m :: w_maps w /\
     MMAPAllocation.mmapped_buffer_ this = m_addr m /\
     MMAPAllocation.mmapped_buffer_ this <> MAP_FAILED) /\
  (unopenable o w path -> bytes this = 0).
Proof.
  cbv zeta.
  destruct (open_cases o w path) as [Hu | [data [Hf He]]].
  - rewrite (MMAP_ctor_refused _ _ _ Hu). cbn. split; [| reflexivity].
    split; [discriminate |].
    intros [m [Hm _]]. exfalso. exact (cons_neq_self _ _ Hm).
  - rewrite (MMAP_ctor_granted _ _ _ _ Hf He). cbv zeta.
    split; [| intros Hu; exfalso; exact (granted_not_unopenable _ _ _ _ Hf He Hu)].
    destruct (if to_size_t (st_size_seen o data) =? 0 then None
              else mmap_address o w) as [a|] eqn:Hm.
    + assert (Ha : (a =? MAP_FAILED) = false).
      { destruct (to_size_t (st_size_seen o data) =? 0); [discriminate |].
        exact (mmap_address_real _ _ _ Hm). }
      cbn -[MAP_FAILED]. rewrite Ha. split; [| reflexivity].
      intros _. eexists. split; [reflexivity |]. split; [reflexivity |].
      now apply Z.eqb_neq.
    + cbn. split; [discriminate |].
      intros [m [Hmaps _]]. exfalso. exact (cons_neq_self _ _ Hmaps).
Qed.

Lemma C7_valid_iff_mapping_acquired_witness :
  unopenable fair boot "nope" /\
  bytes (fst (MMAPAllocation.ctor fair "nope" boot)) = 0.
Proof.
  assert (H : unopenable fair boot "nope") by (left; reflexivity).
  split; [exact H |].
  exact (proj2 (C7_valid_iff_mapping_acquired fair boot "nope") H).
Defined.

(** A refused mapping is reported once and leaves the object invalid. *)
Lemma MMAP_refused_mapping_reported
  (o : Oracle) (w : World) (path : string) (data : list byte) :
  file_at w path = Some data ->
  o_open_err o = false ->
  mmap_address o w = None ->
  exists this w',
    MMAPAllocation.ctor o path w = (this, w') /\
    valid this = false /\
    reports_once w w' ("Mmap of '" ++ path ++ "' failed.").
Proof.
  intros Hf He Hm.
  rewrite (MMAP_ctor_granted _ _ _ _ Hf He). cbv zeta. rewrite Hm.
  destruct (_ =? 0);
    (eexists _, _; split; [reflexivity |]; split; [reflexivity |];
     eexists; split; reflexivity).
Qed.

(** A failed [fstat] goes unnoticed: the mapping is made with the size found
    on the stack, the object is valid, the sink hears nothing. *)
Lemma MMAP_failed_fstat_unnoticed
  (o : Oracle) (w : World) (path : string) (data : list byte) (a : ptr) :
  file_at w path = Some data ->
  o_open_err o = false ->
  o_fstat_err o = true ->
  to_size_t (o_stack o) <> 0 ->
  mmap_address o w = Some a ->
  exists this w',
    MMAPAllocation.ctor o path w = (this, w') /\
    valid this = true /\
    bytes this = to_size_t (o_stack o) /\
    w_log w' = w_log w.
Proof.
  intros Hf He Hs Hn Ha.
  rewrite (MMAP_ctor_granted _ _ _ _ Hf He). unfold st_size_seen.
  rewrite Hs. cbv zeta. apply Z.eqb_neq in Hn. rewrite Hn, Ha.
  eexists _, _. split; [reflexivity |].
  cbn -[MAP_FAILED]. now rewrite (mmap_address_real _ _ _ Ha).
Qed.

(** C1, where the code departs from it: [model.bin] has 3 bytes; [fstat]
    fails, its return code is not looked at, the mapping is made with the
    4096 found in the uninitialised [sb.st_size]; the object is valid and
    [bytes()] is 4096.  The 4096 bytes at [base()] are not the file. *)
Theorem C1_mmap_size_after_failed_fstat :
  file_at boot "model.bin" = Some model_bin /\
  Z.of_nat (length model_bin) = 3 /\
  fst (fstat stale 0 (o_stack stale) (opened boot "model.bin")) = -1 /\
  exists this w',
    MMAPAllocation.ctor stale "model.bin" boot = (this, w') /\
    valid this = true /\
    bytes this = 4096 /\
    load w' (base this) (bytes this) <> Some model_bin.
Proof.
  repeat split. eexists _, _. repeat split. discriminate.
Qed.

Lemma MMAP_dtor_inert (this : MMAPAllocation.t) (w : World) :
  MMAPAllocation.dtor this w = w.
Proof. reflexivity. Qed.

(** Once [open] has succeeded, the descriptor stays open through
    construction and destruction, whether or not the mapping was made. *)
Lemma MMAP_descriptor_never_closed
  (o : Oracle) (w : World) (path : string) (data : list byte) :
  file_at w path = Some data ->
  o_open_err o = false ->
  let this := fst (MMAPAllocation.ctor o path w) in
  let w' := snd (MMAPAllocation.ctor o path w) in
  fd_in_use (w_fds w) (MMAPAllocation.mmap_fd_ this) = false /\
  fd_in_use (w_fds (MMAPAllocation.dtor this w')) (MMAPAllocation.mmap_fd_ this)
  = true.
Proof.
  intros Hf He. cbv zeta. rewrite (MMAP_ctor_granted _ _ _ _ Hf He). cbv zeta.
  destruct (if _ =? 0 then None else mmap_address o w);
    cbn; rewrite Z.eqb_refl; (split; [apply lowest_unused_fresh | reflexivity]).
Qed.

(** C5, where the code departs from it: after a successful construction over
    [model.bin], destroying the object leaves the mapping mapped and the
    descriptor open; after a construction that stopped at a refused mapping,
    destroying the object leaves the descriptor open. *)
Theorem C5_destructor_releases_nothing :
  w_fds boot = [] /\ w_maps boot = [] /\
  (exists this w',
      MMAPAllocation.ctor fair "model.bin" boot = (this, w') /\
      valid this = true /\
      w_fds (MMAPAllocation.dtor this w') = [mkOpenFile 0 "model.bin" 0] /\
      w_maps (MMAPAllocation.dtor this w') = [mkMapping 65536 3 "model.bin"]) /\
  (exists this w',
      MMAPAllocation.ctor unmappable "model.bin" boot = (this, w') /\
      valid this = false /\
      w_fds (MMAPAllocation.dtor this w') = [mkOpenFile 0 "model.bin" 0]).
Proof.
  repeat split; eexists _, _; repeat split.
Qed.

(** ** FileCopyAllocation *)

(** C8: whatever way the FileCopyAllocation constructor is left (open
    failure, size-query failure, allocation failure, short read, success),
    the descriptor table is what it was before the call: the handle obtained
    from [fopen] has been closed, and the descriptor it used is not open. *)
Theorem C8_file_handle_closed_on_every_path (o : Oracle) (w : World) (path : string) :
  let w' := FileCopyAllocation.world_of (FileCopyAllocation.ctor o path w) in
  w_fds w' = w_fds w /\ fd_in_use (w_fds w') (lowest_unused (w_fds w)) = false.
Proof.
  assert (H : w_fds (FileCopyAllocation.world_of (FileCopyAllocation.ctor o path w))
              = w_fds w).
  { destruct (open_cases o w path) as [Hu | [data [Hf He]]].
    - now rewrite (FileCopy_ctor_refused _ _ _ Hu).
    - rewrite (FileCopy_ctor_granted _ _ _ _ Hf He).
      destruct (o_fstat_err o); [reflexivity |].
      cbv zeta. destruct (new_address o w); [| reflexivity].
      now destruct (negb _). }
  cbv zeta. rewrite H. split; [reflexivity | apply lowest_unused_fresh].
Qed.

(** C6: over an existing empty file that can be opened, queried and given a
    buffer, the constructor leaves an object with [valid() == true] and
    [bytes() == 0]. *)
Theorem C6_empty_file_is_valid (o : Oracle) (w : World) (path : string) (a : ptr) :
  file_at w path = Some [] ->
  o_open_err o = false ->
  o_fstat_err o = false ->
  new_address o w = Some a ->
  exists this w',
    FileCopyAllocation.ctor o path w = FileCopyAllocation.Constructed this w' /\
    valid this = true /\ bytes this = 0.
Proof.
  intros Hf He Hs Ha.
  rewrite (FileCopy_ctor_granted _ _ _ _ Hf He), Hs. cbv zeta. rewrite Ha.
  change (to_size_t (Z.of_nat (length (@nil byte)))) with 0.
  unfold delivered. rewrite Nat.min_0_r. cbn [Z.of_nat Z.eqb negb].
  eexists _, _. split; [reflexivity |]. split; [| reflexivity].
  cbn. now rewrite (new_address_not_null _ _ _ Ha).
Qed.

Lemma C6_empty_file_is_valid_witness :
  (file_at boot "empty.bin" = Some [] /\
   o_open_err fair = false /\ o_fstat_err fair = false /\
   new_address fair boot = Some 4242) /\
  exists this w',
    FileCopyAllocation.ctor fair "empty.bin" boot =
      FileCopyAllocation.Constructed this w' /\
    valid this = true /\ bytes this = 0.
Proof.
  split; [repeat split |].
  apply (C6_empty_file_is_valid fair boot "empty.bin" 4242); reflexivity.
Defined.

(** A stream that stops before the end of the file makes the read short. *)
Lemma delivered_short (o : Oracle) (data : list byte) :
  (o_fread o < length data)%nat ->
  (Z.of_nat (delivered o (Z.of_nat (length data)) data)
   =? Z.of_nat (length data)) = false.
Proof.
  intros H. apply Z.eqb_neq. unfold delivered. rewrite Nat2Z.id. lia.
Qed.

(** C4: when the file opens, its size is found and the buffer is obtained,
    but the read delivers fewer bytes than the size, the constructor sends
    exactly one report, ["Read of '<path>' failed (too few bytes read)."],
    leaves [valid() == false], and [base()] is the null pointer, not the
    buffer [a] that was partly filled: that block has left the heap. *)
Theorem C4_short_read_discards_buffer
  (o : Oracle) (w : World) (path : string) (data : list byte) (a : ptr) :
  file_at w path = Some data ->
  Z.of_nat (length data) <= OFF_MAX ->
  o_open_err o = false ->
  o_fstat_err o = false ->
  new_address o w = Some a ->
  (o_fread o < length data)%nat ->
  exists this w',
    FileCopyAllocation.ctor o path w = FileCopyAllocation.Constructed this w' /\
    reports_once w w' ("Read of '" ++ path ++ "' failed (too few bytes read).") /\
    valid this = false /\
    base this = nullptr /\ base this <> a /\
    w_heap w' = w_heap w.
Proof.
  intros Hf Hmax He Hs Ha Hshort.
  rewrite (FileCopy_ctor_granted _ _ _ _ Hf He), Hs. cbv zeta. rewrite Ha.
  rewrite (to_size_t_file_length _ Hmax), (delivered_short _ _ Hshort).
  cbn [negb].
  eexists _, _. split; [reflexivity |].
  split; [apply Report_once |].
  split; [reflexivity |]. split; [reflexivity |]. split; [| reflexivity].
  apply new_address_not_null in Ha. apply Z.eqb_neq in Ha. cbn. congruence.
Qed.

Lemma C4_short_read_discards_buffer_witness :
  (file_at boot "model.bin" = Some model_bin /\
   Z.of_nat (length model_bin) <= OFF_MAX /\
   o_open_err truncated = false /\ o_fstat_err truncated = false /\
   new_address truncated boot = Some 4242 /\
   (o_fread truncated < length model_bin)%nat) /\
  exists this w',
    FileCopyAllocation.ctor truncated "model.bin" boot =
      FileCopyAllocation.Constructed this w' /\
    reports_once boot w' "Read of 'model.bin' failed (too few bytes read)." /\
    valid this = false /\
    base this = nullptr /\ base this <> 4242 /\
    w_heap w' = w_heap boot.
Proof.
  split.
  - repeat split; try reflexivity; unfold OFF_MAX; simpl; lia.
  - apply (C4_short_read_discards_buffer truncated boot "model.bin" model_bin 4242);
      try reflexivity; unfold OFF_MAX; simpl; lia.
Defined.

(** After a short read [bytes()] is the size that [fstat] found, which is
    not 0. *)
Lemma FileCopy_short_read_keeps_size
  (o : Oracle) (w : World) (path : string) (data : list byte) (a : ptr) :
  file_at w path = Some data ->
  Z.of_nat (length data) <= OFF_MAX ->
  o_open_err o = false ->
  o_fstat_err o = false ->
  new_address o w = Some a ->
  (o_fread o < length data)%nat ->
  exists this w',
    FileCopyAllocation.ctor o path w = FileCopyAllocation.Constructed this w' /\
    valid this = false /\
    bytes this = Z.of_nat (length data) /\ bytes this <> 0.
Proof.
  intros Hf Hmax He Hs Ha Hshort.
  rewrite (FileCopy_ctor_granted _ _ _ _ Hf He), Hs. cbv zeta. rewrite Ha.
  rewrite (to_size_t_file_length _ Hmax), (delivered_short _ _ Hshort).
  cbn [negb].
  eexists _, _. split; [reflexivity |]. split; [reflexivity |].
  cbn. split; [reflexivity | lia].
Qed.

(** After a failure before the size is known [bytes()] is 0. *)
Lemma FileCopy_early_failure_keeps_zero
  (o : Oracle) (w : World) (path : string) :
  unopenable o w path \/ o_fstat_err o = true ->
  exists this w',
    FileCopyAllocation.ctor o path w = FileCopyAllocation.Constructed this w' /\
    valid this = false /\ bytes this = 0.
Proof.
  intros H.
  destruct (open_cases o w path) as [Hu | [data [Hf He]]].
  - rewrite (FileCopy_ctor_refused _ _ _ Hu). now eexists _, _.
  - destruct H as [[Hn | Hn] | Hs]; try congruence.
    rewrite (FileCopy_ctor_granted _ _ _ _ Hf He), Hs. now eexists _, _.
Qed.

(** A failed size query is reported once and leaves the object invalid. *)
Lemma FileCopy_failed_fstat_reported
  (o : Oracle) (w : World) (path : string) (data : list byte) :
  file_at w path = Some data ->
  o_open_err o = false ->
  o_fstat_err o = true ->
  exists this w',
    FileCopyAllocation.ctor o path w = FileCopyAllocation.Constructed this w' /\
    valid this = false /\
    reports_once w w' ("Failed to get file size of '" ++ path ++ "'.").
Proof.
  intros Hf He Hs.
  rewrite (FileCopy_ctor_granted _ _ _ _ Hf He), Hs.
  eexists _, _. split; [reflexivity |]. split; [reflexivity |].
  apply Report_once.
Qed.

(** When the buffer cannot be obtained, [new char[n]] throws: the constructor
    is left by [std::bad_alloc], nothing is reported, and the test
    [if (!buffer)] that follows the allocation is never reached. *)
Lemma FileCopy_allocation_failure_throws
  (o : Oracle) (w : World) (path : string) (data : list byte) :
  file_at w path = Some data ->
  o_open_err o = false ->
  o_fstat_err o = false ->
  new_address o w = None ->
  FileCopyAllocation.ctor o path w = FileCopyAllocation.Thrown bad_alloc w.
Proof.
  intros Hf He Hs Ha.
  rewrite (FileCopy_ctor_granted _ _ _ _ Hf He), Hs. cbv zeta. now rewrite Ha.
Qed.

(** C2, where the code departs from it: with the heap exhausted the
    FileCopyAllocation constructor over the three-byte file [model.bin] is
    left by the exception [std::bad_alloc] and the error sink receives
    nothing; and when [fstat] fails in the MMAPAllocation constructor the
    object is reported valid and the error sink receives nothing. *)
Theorem C2_failures_not_captured :
  FileCopyAllocation.ctor starved "model.bin" boot =
    FileCopyAllocation.Thrown bad_alloc boot /\
  w_log boot = [] /\
  (fst (fstat stale 0 (o_stack stale) (opened boot "model.bin")) = -1 /\
   valid (fst (MMAPAllocation.ctor stale "model.bin" boot)) = true /\
   w_log (snd (MMAPAllocation.ctor stale "model.bin" boot)) = []).
Proof. repeat split. Qed.

(** C9, where the code departs from it: after the size query succeeded (3
    bytes) and the allocation failed, the constructor has thrown; there is no
    object whose [bytes()] could return 3 and whose [valid()] could return
    false. *)
Theorem C9_no_object_after_allocation_failure :
  fstat starved 0 (o_stack starved) (opened boot "model.bin") = (0, 3) /\
  new_address starved (opened boot "model.bin") = None /\
  forall this w',
    FileCopyAllocation.ctor starved "model.bin" boot <>
    FileCopyAllocation.Constructed this w'.
Proof. repeat split. intros this w'. discriminate. Qed.

(** ** The two sentinels *)

(** C10: an invalid FileCopyAllocation has [base()] equal to the null
    pointer, an invalid MMAPAllocation has [base()] equal to [MAP_FAILED];
    [MAP_FAILED] is not the null pointer, so the two differ. *)
Theorem C10_failure_sentinels_differ
  (c : FileCopyAllocation.t) (m : MMAPAllocation.t) :
  valid c = false ->
  valid m = false ->
  base c = nullptr /\ base m = MAP_FAILED /\
  MAP_FAILED <> nullptr /\ base m <> base c.
Proof.
  cbn. intros Hc Hm.
  apply negb_false_iff, Z.eqb_eq in Hc. apply negb_false_iff, Z.eqb_eq in Hm.
  rewrite Hc, Hm. repeat split; discriminate.
Qed.

Lemma C10_failure_sentinels_differ_witness :
  let c := FileCopyAllocation.mk nullptr 0 in
  let m := fst (MMAPAllocation.ctor fair "nope" boot) in
  (valid c = false /\ valid m = false) /\
  base c = nullptr /\ base m = MAP_FAILED /\
  MAP_FAILED <> nullptr /\ base m <> base c.
Proof.
  split; [split; reflexivity |].
  apply C10_failure_sentinels_differ; reflexivity.
Defined.

(** ** Round trip

    What holds of the round-trip property: it holds of every valid
    FileCopyAllocation, and of every valid MMAPAllocation whose [fstat]
    succeeded. *)

(** Every valid FileCopyAllocation has [bytes()] equal to the length of the
    file, and the [bytes()] bytes at [base()] are the file. *)
Lemma FileCopy_round_trip
  (o : Oracle) (w : World) (path : string) (data : list byte)
  (this : FileCopyAllocation.t) (w' : World) :
  file_at w path = Some data ->
  Z.of_nat (length data) <= OFF_MAX ->
  FileCopyAllocation.ctor o path w = FileCopyAllocation.Constructed this w' ->
  valid this = true ->
  bytes this = Z.of_nat (length data) /\
  load w' (base this) (bytes this) = Some data.
Proof.
  intros Hf Hmax Hctor Hvalid.
  destruct (o_open_err o) eqn:He.
  - rewrite FileCopy_ctor_refused in Hctor by now right.
    injection Hctor as <- <-. discriminate.
  - rewrite (FileCopy_ctor_granted _ _ _ _ Hf He) in Hctor.
    destruct (o_fstat_err o); [injection Hctor as <- <-; discriminate |].
    cbv zeta in Hctor. rewrite (to_size_t_file_length _ Hmax) in Hctor.
    destruct (new_address o w) as [a|]; [| discriminate].
    destruct (Z.of_nat _ =? _) eqn:Hk; cbn [negb] in Hctor;
      [| injection Hctor as <- <-; discriminate].
    apply Z.eqb_eq, Nat2Z.inj in Hk. rewrite Hk, firstn_all, filled_all in Hctor.
    injection Hctor as <- <-. split; [reflexivity |].
    unfold load. cbn. rewrite Z.eqb_refl. cbn.
    rewrite length_map, Z.ltb_irrefl, Nat2Z.id.
    rewrite <- (length_map Some data), firstn_all. apply defined_map_Some.
Qed.

(** Every valid MMAPAllocation whose [fstat] succeeded has [bytes()] equal to
    the length of the file, and the [bytes()] bytes at [base()] are the
    file. *)
Lemma MMAP_round_trip
  (o : Oracle) (w : World) (path : string) (data : list byte)
  (this : MMAPAllocation.t) (w' : World) :
  file_at w path = Some data ->
  Z.of_nat (length data) <= OFF_MAX ->
  o_fstat_err o = false ->
  MMAPAllocation.ctor o path w = (this, w') ->
  valid this = true ->
  bytes this = Z.of_nat (length data) /\
  load w' (base this) (bytes this) = Some data.
Proof.
  intros Hf Hmax Hs Hctor Hvalid.
  destruct (o_open_err o) eqn:He.
  - rewrite MMAP_ctor_refused in Hctor by now right.
    injection Hctor as <- <-. discriminate.
  - rewrite (MMAP_ctor_granted _ _ _ _ Hf He) in Hctor. cbv zeta in Hctor.
    unfold st_size_seen in Hctor.
    rewrite Hs, (to_size_t_file_length _ Hmax) in Hctor.
    destruct (if Z.of_nat (length data) =? 0 then None else mmap_address o w)
      as [a|] eqn:Hm; [| injection Hctor as <- <-; discriminate].
    assert (Ha : mmap_address o w = Some a)
      by (destruct (Z.of_nat (length data) =? 0); [discriminate | exact Hm]).
    injection Hctor as <- <-. split; [reflexivity |].
    apply mmap_address_fresh in Ha. unfold addr_in_use in Ha.
    apply orb_false_iff in Ha as [Hheap _].
    unfold load, file_at in *. cbn.
    rewrite (find_existsb_false _ _ Hheap), Z.eqb_refl. cbn.
    rewrite Hf, Z.ltb_irrefl, Nat2Z.id, firstn_all. reflexivity.
Qed.

(** ** Destruction of a FileCopyAllocation

    The owning member returns the buffer: after construction and
    destruction the heap is what it was. *)
Lemma FileCopy_dtor_releases_buffer
  (o : Oracle) (w : World) (path : string)
  (this : FileCopyAllocation.t) (w' : World) :
  FileCopyAllocation.ctor o path w = FileCopyAllocation.Constructed this w' ->
  w_heap (FileCopyAllocation.dtor this w') = w_heap w.
Proof.
  intros Hctor.
  destruct (open_cases o w path) as [Hu | [data [Hf He]]].
  - rewrite (FileCopy_ctor_refused _ _ _ Hu) in Hctor.
    now injection Hctor as <- <-.
  - rewrite (FileCopy_ctor_granted _ _ _ _ Hf He) in Hctor.
    destruct (o_fstat_err o); [now injection Hctor as <- <- |].
    cbv zeta in Hctor.
    destruct (new_address o w) as [a|] eqn:Ha; [| discriminate].
    destruct (negb _); injection Hctor as <- <-; [reflexivity |].
    unfold FileCopyAllocation.dtor, delete_array.
    cbn [FileCopyAllocation.copied_buffer_].
    rewrite (new_address_not_null _ _ _ Ha). cbn. now rewrite Z.eqb_refl.
Qed.

(** * Further properties of the constructors *)

(** ** What a construction leaves behind *)

(** Neither constructor writes: the files are what they were.  The
    MMAPAllocation constructor does not touch the heap, the
    FileCopyAllocation constructor makes no mapping. *)
Theorem ctor_frame (o : Oracle) (w : World) (path : string) :
  let wm := snd (MMAPAllocation.ctor o path w) in
  let wc := FileCopyAllocation.world_of (FileCopyAllocation.ctor o path w) in
  (w_fs wm = w_fs w /\ w_heap wm = w_heap w) /\
  (w_fs wc = w_fs w /\ w_maps wc = w_maps w).
Proof.
  cbv zeta. destruct (open_cases o w path) as [Hu | [data [Hf He]]].
  - rewrite (MMAP_ctor_refused _ _ _ Hu), (FileCopy_ctor_refused _ _ _ Hu).
    now repeat split.
  - rewrite (MMAP_ctor_granted _ _ _ _ Hf He),
            (FileCopy_ctor_granted _ _ _ _ Hf He). cbv zeta. split.
    + now destruct (if _ =? 0 then None else mmap_address o w).
    + destruct (o_fstat_err o); [now split |].
      destruct (new_address o w); [| now split].
      now destruct (negb _).
Qed.

(** An MMAPAllocation is invalid exactly when its constructor reported, and
    then it reported once; the text tells the step that failed: [mmap_fd_] is
    -1 after ["Could not open '<path>'."] and a descriptor after
    ["Mmap of '<path>' failed."].  A valid object comes with a silent sink. *)
Theorem MMAP_report_tells_failure (o : Oracle) (w : World) (path : string) :
  let this := fst (MMAPAllocation.ctor o path w) in
  let w' := snd (MMAPAllocation.ctor o path w) in
  (valid this = true /\ w_log w' = w_log w) \/
  (valid this = false /\ MMAPAllocation.mmap_fd_ this = -1 /\
   reports_once w w' ("Could not open '" ++ path ++ "'.")) \/
  (valid this = false /\ 0 <= MMAPAllocation.mmap_fd_ this /\
   reports_once w w' ("Mmap of '" ++ path ++ "' failed.")).
Proof.
  cbv zeta. destruct (open_cases o w path) as [Hu | [data [Hf He]]].
  - rewrite (MMAP_ctor_refused _ _ _ Hu). right. left.
    split; [reflexivity |]. split; [reflexivity | apply Report_once].
  - rewrite (MMAP_ctor_granted _ _ _ _ Hf He). cbv zeta.
    destruct (if _ =? 0 then None else mmap_address o w) as [a|] eqn:Hm.
    + left. assert (Ha : (a =? MAP_FAILED) = false).
      { destruct (_ =? 0); [discriminate | exact (mmap_address_real _ _ _ Hm)]. }
      cbn -[MAP_FAILED]. now rewrite Ha.
    + right. right. split; [reflexivity |].
      split; [apply lowest_unused_nonneg |].
      eexists. split; reflexivity.
Qed.

(** The ways out of the FileCopyAllocation constructor.  It returns a valid
    object and a silent sink; or an invalid object and the world it found
    plus one report, which is about the open, the size query or the read,
    never about the buffer; or it throws [std::bad_alloc] and leaves the
    world it found. *)
Theorem FileCopy_ctor_outcomes (o : Oracle) (w : World) (path : string) :
  match FileCopyAllocation.ctor o path w with
  | FileCopyAllocation.Constructed this w' =>
      (valid this = true /\ w_log w' = w_log w) \/
      (valid this = false /\
       exists format,
         w' = Report_ format path w /\
         (format = "Could not open '%s'." \/
          format = "Failed to get file size of '%s'." \/
          format = "Read of '%s' failed (too few bytes read)."))
  | FileCopyAllocation.Thrown e w' => e = bad_alloc /\ w' = w
  end.
Proof.
  destruct (open_cases o w path) as [Hu | [data [Hf He]]].
  - rewrite (FileCopy_ctor_refused _ _ _ Hu). right.
    split; [reflexivity |]. eexists. split; [reflexivity | now left].
  - rewrite (FileCopy_ctor_granted _ _ _ _ Hf He).
    destruct (o_fstat_err o).
    { right. split; [reflexivity |]. eexists.
      split; [reflexivity | right; now left]. }
    cbv zeta. destruct (new_address o w) as [a|] eqn:Ha; [| now split].
    destruct (negb _).
    + right. split; [reflexivity |]. eexists.
      split; [reflexivity | right; now right].
    + left. cbn. now rewrite (new_address_not_null _ _ _ Ha).
Qed.

(** Discharges the side conditions of a statement at a sample input. *)
Ltac evident :=
  first [ reflexivity
        | unfold OFF_MAX; simpl; lia
        | left; reflexivity
        | right; reflexivity
        | discriminate ].

(** ** MMAPAllocation: sizes and descriptors *)

Lemma to_size_t_nonneg (z : Z) : 0 <= to_size_t z.
Proof. unfold to_size_t. apply Z.mod_pos_bound. lia. Qed.

(** A valid MMAPAllocation is never empty: a mapping of length 0 is refused,
    so [valid()] implies [bytes() > 0]. *)
Theorem MMAP_valid_nonempty (o : Oracle) (w : World) (path : string) :
  valid (fst (MMAPAllocation.ctor o path w)) = true ->
  0 < bytes (fst (MMAPAllocation.ctor o path w)).
Proof.
  destruct (open_cases o w path) as [Hu | [data [Hf He]]].
  - rewrite (MMAP_ctor_refused _ _ _ Hu). discriminate.
  - rewrite (MMAP_ctor_granted _ _ _ _ Hf He). cbv zeta.
    pose proof (to_size_t_nonneg (st_size_seen o data)) as Hn.
    destruct (to_size_t (st_size_seen o data) =? 0) eqn:Hz; [discriminate |].
    apply Z.eqb_neq in Hz.
    destruct (mmap_address o w); [| discriminate].
    intros _. cbn. lia.
Qed.

Lemma MMAP_valid_nonempty_witness :
  valid (fst (MMAPAllocation.ctor fair "model.bin" boot)) = true /\
  0 < bytes (fst (MMAPAllocation.ctor fair "model.bin" boot)).
Proof.
  split; [reflexivity |].
  apply (MMAP_valid_nonempty fair boot "model.bin"). reflexivity.
Defined.

(** Over an existing empty file whose size is found, the MMAPAllocation
    constructor fails at the mapping: [valid()] is false, [bytes()] is 0 and
    the one report is ["Mmap of '<path>' failed."]. *)
Theorem MMAP_empty_file_invalid (o : Oracle) (w : World) (path : string) :
  file_at w path = Some [] ->
  o_open_err o = false ->
  o_fstat_err o = false ->
  let this := fst (MMAPAllocation.ctor o path w) in
  let w' := snd (MMAPAllocation.ctor o path w) in
  valid this = false /\ bytes this = 0 /\
  reports_once w w' ("Mmap of '" ++ path ++ "' failed.").
Proof.
  intros Hf He Hs. cbv zeta.
  rewrite (MMAP_ctor_granted _ _ _ _ Hf He). unfold st_size_seen. rewrite Hs.
  cbv zeta. change (to_size_t (Z.of_nat (length (@nil byte)))) with 0.
  cbn [Z.eqb]. split; [reflexivity |]. split; [reflexivity |].
  eexists. split; reflexivity.
Qed.

Lemma MMAP_empty_file_invalid_witness :
  (file_at boot "empty.bin" = Some [] /\
   o_open_err fair = false /\ o_fstat_err fair = false) /\
  valid (fst (MMAPAllocation.ctor fair "empty.bin" boot)) = false /\
  bytes (fst (MMAPAllocation.ctor fair "empty.bin" boot)) = 0 /\
  reports_once boot (snd (MMAPAllocation.ctor fair "empty.bin" boot))
               "Mmap of 'empty.bin' failed.".
Proof.
  split; [repeat split |].
  apply (MMAP_empty_file_invalid fair boot "empty.bin"); reflexivity.
Defined.

(** The descriptor of an MMAPAllocation.  When the open is turned down,
    [mmap_fd_] is -1 and the descriptor table is untouched.  Otherwise
    [mmap_fd_] is a descriptor that was free, and the constructor returns
    with it open on the file, whether the mapping was made or refused. *)
Theorem MMAP_ctor_descriptor (o : Oracle) (w : World) (path : string) :
  let this := fst (MMAPAllocation.ctor o path w) in
  let w' := snd (MMAPAllocation.ctor o path w) in
  (unopenable o w path /\
   MMAPAllocation.mmap_fd_ this = -1 /\ w_fds w' = w_fds w) \/
  (~ unopenable o w path /\
   0 <= MMAPAllocation.mmap_fd_ this /\
   fd_in_use (w_fds w) (MMAPAllocation.mmap_fd_ this) = false /\
   w_fds w' = mkOpenFile (MMAPAllocation.mmap_fd_ this) path 0 :: w_fds w).
Proof.
  cbv zeta. destruct (open_cases o w path) as [Hu | [data [Hf He]]].
  - left. rewrite (MMAP_ctor_refused _ _ _ Hu). now repeat split.
  - right. rewrite (MMAP_ctor_granted _ _ _ _ Hf He). cbv zeta.
    split; [exact (granted_not_unopenable _ _ _ _ Hf He) |].
    destruct (if _ =? 0 then None else mmap_address o w); cbn;
      (split; [apply lowest_unused_nonneg |]);
      (split; [apply lowest_unused_fresh | reflexivity]).
Qed.

(** Shape of the world after a successful mapping. *)
Lemma MMAP_success_shape
  (o : Oracle) (w : World) (path : string) (data : list byte)
  (this : MMAPAllocation.t) (w' : World) :
  file_at w path = Some data ->
  Z.of_nat (length data) <= OFF_MAX ->
  o_fstat_err o = false ->
  MMAPAllocation.ctor o path w = (this, w') ->
  valid this = true ->
  mmap_address o w = Some (base this) /\
  bytes this = Z.of_nat (length data) /\
  w' = set_maps (opened w path)
         (mkMapping (base this) (Z.of_nat (length data)) path :: w_maps w).
Proof.
  intros Hf Hmax Hs Hctor Hvalid.
  destruct (o_open_err o) eqn:He.
  - rewrite MMAP_ctor_refused in Hctor by now right.
    injection Hctor as <- <-. discriminate.
  - rewrite (MMAP_ctor_granted _ _ _ _ Hf He) in Hctor. cbv zeta in Hctor.
    unfold st_size_seen in Hctor.
    rewrite Hs, (to_size_t_file_length _ Hmax) in Hctor.
    destruct (if Z.of_nat (length data) =? 0 then None else mmap_address o w)
      as [a|] eqn:Hm; [| injection Hctor as <- <-; discriminate].
    assert (Ha : mmap_address o w = Some a)
      by (destruct (Z.of_nat (length data) =? 0); [discriminate | exact Hm]).
    injection Hctor as <- <-. now repeat split.
Qed.

(** A valid MMAPAllocation whose [fstat] succeeded changed the world by one
    open descriptor and one mapping of the whole file, placed where nothing
    was. *)
Theorem MMAP_success_adds_one_mapping
  (o : Oracle) (w : World) (path : string) (data : list byte)
  (this : MMAPAllocation.t) (w' : World) :
  file_at w path = Some data ->
  Z.of_nat (length data) <= OFF_MAX ->
  o_fstat_err o = false ->
  MMAPAllocation.ctor o path w = (this, w') ->
  valid this = true ->
  mmap_address o w = Some (base this) /\
  w' = set_maps (opened w path)
         (mkMapping (base this) (Z.of_nat (length data)) path :: w_maps w).
Proof.
  intros Hf Hmax Hs Hctor Hvalid.
  destruct (MMAP_success_shape _ _ _ _ _ _ Hf Hmax Hs Hctor Hvalid)
    as [Ha [_ Hw]].
  now split.
Qed.

Lemma MMAP_success_adds_one_mapping_witness :
  let this := MMAPAllocation.mk 0 65536 3 in
  let w' := set_maps (opened boot "model.bin")
              [mkMapping 65536 3 "model.bin"] in
  (file_at boot "model.bin" = Some model_bin /\
   Z.of_nat (length model_bin) <= OFF_MAX /\
   o_fstat_err fair = false /\
   MMAPAllocation.ctor fair "model.bin" boot = (this, w') /\
   valid this = true) /\
  mmap_address fair boot = Some (base this) /\
  w' = set_maps (opened boot "model.bin")
         (mkMapping (base this) (Z.of_nat (length model_bin)) "model.bin"
          :: w_maps boot).
Proof.
  cbv zeta. split; [repeat split; evident |].
  apply (MMAP_success_adds_one_mapping fair boot "model.bin" model_bin);
    evident.
Defined.

(** ** FileCopyAllocation: the buffer *)

Lemma new_address_fresh o w a :
  new_address o w = Some a -> addr_in_use w a = false.
Proof.
  unfold new_address. destruct (o_new o) as [p|]; [| discriminate].
  destruct (addr_in_use w (Z.pos p)) eqn:H; [discriminate |].
  now intros [= <-].
Qed.

(** A fully written block reads back as the bytes written. *)
Lemma load_heap_block (w : World) (p : ptr) (data : list byte) :
  find (fun b => b_addr b =? p) (w_heap w) = Some (mkBlock p (map Some data)) ->
  load w p (Z.of_nat (length data)) = Some data.
Proof.
  intros H. unfold load. rewrite H. cbn [b_cells].
  rewrite length_map, Z.ltb_irrefl, Nat2Z.id.
  rewrite <- (length_map Some data), firstn_all. apply defined_map_Some.
Qed.

(** Shape of the world after a successful copy. *)
Lemma FileCopy_success_shape
  (o : Oracle) (w : World) (path : string) (data : list byte)
  (this : FileCopyAllocation.t) (w' : World) :
  file_at w path = Some data ->
  Z.of_nat (length data) <= OFF_MAX ->
  FileCopyAllocation.ctor o path w = FileCopyAllocation.Constructed this w' ->
  valid this = true ->
  new_address o w = Some (base this) /\
  bytes this = Z.of_nat (length data) /\
  w' = set_heap w (mkBlock (base this) (map Some data) :: w_heap w).
Proof.
  intros Hf Hmax Hctor Hvalid.
  destruct (o_open_err o) eqn:He.
  - rewrite FileCopy_ctor_refused in Hctor by now right.
    injection Hctor as <- <-. discriminate.
  - rewrite (FileCopy_ctor_granted _ _ _ _ Hf He) in Hctor.
    destruct (o_fstat_err o); [injection Hctor as <- <-; discriminate |].
    cbv zeta in Hctor. rewrite (to_size_t_file_length _ Hmax) in Hctor.
    destruct (new_address o w) as [a|]; [| discriminate].
    destruct (Z.of_nat _ =? _) eqn:Hk; cbn [negb] in Hctor;
      [| injection Hctor as <- <-; discriminate].
    apply Z.eqb_eq, Nat2Z.inj in Hk. rewrite Hk, firstn_all, filled_all in Hctor.
    injection Hctor as <- <-. now repeat split.
Qed.

(** A valid FileCopyAllocation changed the world by one heap block, placed
    where nothing was, that holds the file byte for byte; descriptors,
    mappings, files and the sink are what they were. *)
Theorem FileCopy_success_adds_one_block
  (o : Oracle) (w : World) (path : string) (data : list byte)
  (this : FileCopyAllocation.t) (w' : World) :
  file_at w path = Some data ->
  Z.of_nat (length data) <= OFF_MAX ->
  FileCopyAllocation.ctor o path w = FileCopyAllocation.Constructed this w' ->
  valid this = true ->
  new_address o w = Some (base this) /\
  bytes this = Z.of_nat (length data) /\
  w' = set_heap w (mkBlock (base this) (map Some data) :: w_heap w).
Proof.
  intros Hf Hmax Hctor Hvalid.
  exact (FileCopy_success_shape _ _ _ _ _ _ Hf Hmax Hctor Hvalid).
Qed.

Lemma FileCopy_success_adds_one_block_witness :
  let this := FileCopyAllocation.mk 4242 3 in
  let w' := set_heap boot [mkBlock 4242 (map Some model_bin)] in
  (file_at boot "model.bin" = Some model_bin /\
   Z.of_nat (length model_bin) <= OFF_MAX /\
   FileCopyAllocation.ctor fair "model.bin" boot =
     FileCopyAllocation.Constructed this w' /\
   valid this = true) /\
  new_address fair boot = Some (base this) /\
  bytes this = Z.of_nat (length model_bin) /\
  w' = set_heap boot (mkBlock (base this) (map Some model_bin) :: w_heap boot).
Proof.
  cbv zeta. split; [repeat split; evident |].
  apply (FileCopy_success_adds_one_block fair boot "model.bin" model_bin);
    evident.
Defined.

(** ** Several allocations over one file *)

(** Two valid FileCopyAllocations over the same file, the second built after
    the first: their buffers are distinct, both hold the file, and after one
    of them is destroyed the other still does. *)
Theorem FileCopy_two_copies_independent
  (o1 o2 : Oracle) (w w1 w2 : World) (path : string) (data : list byte)
  (c1 c2 : FileCopyAllocation.t) :
  file_at w path = Some data ->
  Z.of_nat (length data) <= OFF_MAX ->
  FileCopyAllocation.ctor o1 path w = FileCopyAllocation.Constructed c1 w1 ->
  valid c1 = true ->
  FileCopyAllocation.ctor o2 path w1 = FileCopyAllocation.Constructed c2 w2 ->
  valid c2 = true ->
  base c1 <> base c2 /\
  load w2 (base c1) (bytes c1) = Some data /\
  load w2 (base c2) (bytes c2) = Some data /\
  load (FileCopyAllocation.dtor c2 w2) (base c1) (bytes c1) = Some data /\
  load (FileCopyAllocation.dtor c1 w2) (base c2) (bytes c2) = Some data.
Proof.
  intros Hf Hmax H1 V1 H2 V2.
  destruct (FileCopy_success_shape _ _ _ _ _ _ Hf Hmax H1 V1)
    as [A1 [B1 E1]].
  assert (Hf1 : file_at w1 path = Some data) by (now rewrite E1).
  destruct (FileCopy_success_shape _ _ _ _ _ _ Hf1 Hmax H2 V2)
    as [A2 [B2 E2]].
  pose proof (new_address_not_null _ _ _ A1) as N1.
  pose proof (new_address_not_null _ _ _ A2) as N2.
  apply new_address_fresh in A2. unfold addr_in_use in A2.
  apply orb_false_iff in A2 as [A2 _]. rewrite E1 in A2. cbn in A2.
  apply orb_false_iff in A2 as [D12 _].
  assert (D21 : (base c2 =? base c1) = false) by (now rewrite Z.eqb_sym).
  rewrite B1, B2.
  split; [now apply Z.eqb_neq |].
  repeat split; apply load_heap_block; rewrite E2, E1;
    unfold FileCopyAllocation.dtor, delete_array;
    change (FileCopyAllocation.copied_buffer_ c1) with (base c1);
    change (FileCopyAllocation.copied_buffer_ c2) with (base c2);
    rewrite ?N1, ?N2; cbn -[base];
    now rewrite ?D12, ?D21, ?Z.eqb_refl; cbn -[base];
        rewrite ?D12, ?D21, ?Z.eqb_refl.
Qed.

Lemma FileCopy_two_copies_independent_witness :
  let c1 := FileCopyAllocation.mk 4242 3 in
  let w1 := set_heap boot [mkBlock 4242 (map Some model_bin)] in
  let c2 := FileCopyAllocation.mk 5000 3 in
  let w2 := set_heap boot [mkBlock 5000 (map Some model_bin);
                           mkBlock 4242 (map Some model_bin)] in
  (file_at boot "model.bin" = Some model_bin /\
   Z.of_nat (length model_bin) <= OFF_MAX /\
   FileCopyAllocation.ctor fair "model.bin" boot =
     FileCopyAllocation.Constructed c1 w1 /\
   valid c1 = true /\
   FileCopyAllocation.ctor fair_elsewhere "model.bin" w1 =
     FileCopyAllocation.Constructed c2 w2 /\
   valid c2 = true) /\
  base c1 <> base c2 /\
  load w2 (base c1) (bytes c1) = Some model_bin /\
  load w2 (base c2) (bytes c2) = Some model_bin /\
  load (FileCopyAllocation.dtor c2 w2) (base c1) (bytes c1) = Some model_bin /\
  load (FileCopyAllocation.dtor c1 w2) (base c2) (bytes c2) = Some model_bin.
Proof.
  cbv zeta. split; [repeat split; evident |].
  apply (FileCopy_two_copies_independent fair fair_elsewhere boot
           (set_heap boot [mkBlock 4242 (map Some model_bin)]) _
           "model.bin" model_bin);
    evident.
Defined.

(** A valid MMAPAllocation and then a valid FileCopyAllocation over the same
    file: the mapping and the buffer are at different addresses, both hold
    the file, and the mapping still does once the copy is destroyed. *)
Theorem mapping_and_copy_agree
  (om oc : Oracle) (w w1 w2 : World) (path : string) (data : list byte)
  (m : MMAPAllocation.t) (c : FileCopyAllocation.t) :
  file_at w path = Some data ->
  Z.of_nat (length data) <= OFF_MAX ->
  o_fstat_err om = false ->
  MMAPAllocation.ctor om path w = (m, w1) ->
  valid m = true ->
  FileCopyAllocation.ctor oc path w1 = FileCopyAllocation.Constructed c w2 ->
  valid c = true ->
  base m <> base c /\
  load w2 (base m) (bytes m) = Some data /\
  load w2 (base c) (bytes c) = Some data /\
  load (FileCopyAllocation.dtor c w2) (base m) (bytes m) = Some data.
Proof.
  intros Hf Hmax Hs Hm Vm Hc Vc.
  destruct (MMAP_success_shape _ _ _ _ _ _ Hf Hmax Hs Hm Vm) as [Am [Bm Em]].
  assert (Hf1 : file_at w1 path = Some data) by (now rewrite Em).
  destruct (FileCopy_success_shape _ _ _ _ _ _ Hf1 Hmax Hc Vc)
    as [Ac [Bc Ec]].
  pose proof (new_address_not_null _ _ _ Ac) as Nc.
  apply new_address_fresh in Ac. unfold addr_in_use in Ac.
  apply orb_false_iff in Ac as [_ Ac]. rewrite Em in Ac. cbn in Ac.
  apply orb_false_iff in Ac as [Dmc _].
  assert (Dcm : (base c =? base m) = false) by (now rewrite Z.eqb_sym).
  apply mmap_address_fresh in Am. unfold addr_in_use in Am.
  apply orb_false_iff in Am as [Am _]. apply find_existsb_false in Am.
  assert (Lm1 : load w1 (base m) (bytes m) = Some data).
  { rewrite Bm, Em. unfold load, file_at in *. cbn -[base].
    rewrite Am, Z.eqb_refl. cbn.
    now rewrite Hf, Z.ltb_irrefl, Nat2Z.id, firstn_all. }
  assert (Lm2 : load w2 (base m) (bytes m) = Some data).
  { rewrite <- Lm1, Ec. unfold load. cbn -[base]. now rewrite Dcm. }
  split; [now apply Z.eqb_neq |]. split; [exact Lm2 |].
  split.
  - rewrite Bc. apply load_heap_block. rewrite Ec. cbn -[base].
    now rewrite Z.eqb_refl.
  - rewrite <- Lm1, Ec. unfold FileCopyAllocation.dtor, delete_array.
    change (FileCopyAllocation.copied_buffer_ c) with (base c).
    rewrite Nc. unfold load. cbn -[base]. now rewrite Z.eqb_refl.
Qed.

Lemma mapping_and_copy_agree_witness :
  let m := MMAPAllocation.mk 0 65536 3 in
  let w1 := set_maps (opened boot "model.bin") [mkMapping 65536 3 "model.bin"] in
  let c := FileCopyAllocation.mk 4242 3 in
  let w2 := set_heap w1 [mkBlock 4242 (map Some model_bin)] in
  (file_at boot "model.bin" = Some model_bin /\
   Z.of_nat (length model_bin) <= OFF_MAX /\
   o_fstat_err fair = false /\
   MMAPAllocation.ctor fair "model.bin" boot = (m, w1) /\
   valid m = true /\
   FileCopyAllocation.ctor fair "model.bin" w1 =
     FileCopyAllocation.Constructed c w2 /\
   valid c = true) /\
  base m <> base c /\
  load w2 (base m) (bytes m) = Some model_bin /\
  load w2 (base c) (bytes c) = Some model_bin /\
  load (FileCopyAllocation.dtor c w2) (base m) (bytes m) = Some model_bin.
Proof.
  cbv zeta. split; [repeat split; evident |].
  apply (mapping_and_copy_agree fair fair boot
           (set_maps (opened boot "model.bin") [mkMapping 65536 3 "model.bin"])
           _ "model.bin" model_bin);
    evident.
Defined.

(** ** Sample runs of the path lemmas *)

Lemma FileCopy_round_trip_witness :
  let this := FileCopyAllocation.mk 4242 3 in
  let w' := set_heap boot [mkBlock 4242 (map Some model_bin)] in
  (file_at boot "model.bin" = Some model_bin /\
   Z.of_nat (length model_bin) <= OFF_MAX /\
   FileCopyAllocation.ctor fair "model.bin" boot =
     FileCopyAllocation.Constructed this w' /\
   valid this = true) /\
  bytes this = Z.of_nat (length model_bin) /\
  load w' (base this) (bytes this) = Some model_bin.
Proof.
  cbv zeta. split; [repeat split; evident |].
  apply (FileCopy_round_trip fair boot "model.bin" model_bin); evident.
Defined.

Lemma MMAP_round_trip_witness :
  let this := MMAPAllocation.mk 0 65536 3 in
  let w' := set_maps (opened boot "model.bin") [mkMapping 65536 3 "model.bin"] in
  (file_at boot "model.bin" = Some model_bin /\
   Z.of_nat (length model_bin) <= OFF_MAX /\
   o_fstat_err fair = false /\
   MMAPAllocation.ctor fair "model.bin" boot = (this, w') /\
   valid this = true) /\
  bytes this = Z.of_nat (length model_bin) /\
  load w' (base this) (bytes this) = Some model_bin.
Proof.
  cbv zeta. split; [repeat split; evident |].
  apply (MMAP_round_trip fair boot "model.bin" model_bin); evident.
Defined.

Lemma MMAP_refused_mapping_reported_witness :
  (file_at boot "model.bin" = Some model_bin /\
   o_open_err unmappable = false /\
   mmap_address unmappable boot = None) /\
  exists this w',
    MMAPAllocation.ctor unmappable "model.bin" boot = (this, w') /\
    valid this = false /\
    reports_once boot w' "Mmap of 'model.bin' failed.".
Proof.
  split; [repeat split |].
  apply (MMAP_refused_mapping_reported unmappable boot "model.bin" model_bin);
    reflexivity.
Defined.

Lemma FileCopy_failed_fstat_reported_witness :
  (file_at boot "model.bin" = Some model_bin /\
   o_open_err stale = false /\ o_fstat_err stale = true) /\
  exists this w',
    FileCopyAllocation.ctor stale "model.bin" boot =
      FileCopyAllocation.Constructed this w' /\
    valid this = false /\
    reports_once boot w' "Failed to get file size of 'model.bin'.".
Proof.
  split; [repeat split |].
  apply (FileCopy_failed_fstat_reported stale boot "model.bin" model_bin);
    reflexivity.
Defined.

Lemma FileCopy_short_read_keeps_size_witness :
  (file_at boot "model.bin" = Some model_bin /\
   Z.of_nat (length model_bin) <= OFF_MAX /\
   o_open_err truncated = false /\ o_fstat_err truncated = false /\
   new_address truncated boot = Some 4242 /\
   (o_fread truncated < length model_bin)%nat) /\
  exists this w',
    FileCopyAllocation.ctor truncated "model.bin" boot =
      FileCopyAllocation.Constructed this w' /\
    valid this = false /\
    bytes this = Z.of_nat (length model_bin) /\ bytes this <> 0.
Proof.
  split; [repeat split; evident |].
  apply (FileCopy_short_read_keeps_size truncated boot "model.bin" model_bin 4242);
    evident.
Defined.

Lemma FileCopy_early_failure_keeps_zero_witness :
  (unopenable stale boot "model.bin" \/ o_fstat_err stale = true) /\
  exists this w',
    FileCopyAllocation.ctor stale "model.bin" boot =
      FileCopyAllocation.Constructed this w' /\
    valid this = false /\ bytes this = 0.
Proof.
  split; [right; reflexivity |].
  apply (FileCopy_early_failure_keeps_zero stale boot "model.bin").
  right. reflexivity.
Defined.

Lemma FileCopy_allocation_failure_throws_witness :
  (file_at boot "model.bin" = Some model_bin /\
   o_open_err starved = false /\ o_fstat_err starved = false /\
   new_address starved boot = None) /\
  FileCopyAllocation.ctor starved "model.bin" boot =
    FileCopyAllocation.Thrown bad_alloc boot.
Proof.
  split; [repeat split |].
  apply (FileCopy_allocation_failure_throws starved boot "model.bin" model_bin);
    reflexivity.
Defined.

Lemma MMAP_failed_fstat_unnoticed_witness :
  (file_at boot "model.bin" = Some model_bin /\
   o_open_err stale = false /\ o_fstat_err stale = true /\
   to_size_t (o_stack stale) <> 0 /\
   mmap_address stale boot = Some 65536) /\
  exists this w',
    MMAPAllocation.ctor stale "model.bin" boot = (this, w') /\
    valid this = true /\
    bytes this = to_size_t (o_stack stale) /\
    w_log w' = w_log boot.
Proof.
  split; [repeat split; discriminate |].
  apply (MMAP_failed_fstat_unnoticed stale boot "model.bin" model_bin 65536);
    evident.
Defined.

Lemma FileCopy_dtor_releases_buffer_witness :
  let this := FileCopyAllocation.mk 4242 3 in
  let w' := set_heap boot [mkBlock 4242 (map Some model_bin)] in
  FileCopyAllocation.ctor fair "model.bin" boot =
    FileCopyAllocation.Constructed this w' /\
  w_heap (FileCopyAllocation.dtor this w') = w_heap boot.
Proof.
  cbv zeta. split; [reflexivity |].
  apply (FileCopy_dtor_releases_buffer fair boot "model.bin"). reflexivity.
Defined.

(** ** Construction followed by destruction *)

(** Whatever object the FileCopyAllocation constructor returns, valid or
    not, destroying it gives back the world the constructor found, up to
    what the sink received: no block, descriptor or mapping is left. *)
Theorem FileCopy_construct_destroy_restores
  (o : Oracle) (w : World) (path : string)
  (this : FileCopyAllocation.t) (w' : World) :
  FileCopyAllocation.ctor o path w = FileCopyAllocation.Constructed this w' ->
  FileCopyAllocation.dtor this w' = set_log w (w_log w').
Proof.
  intros Hctor.
  destruct (open_cases o w path) as [Hu | [data [Hf He]]].
  - rewrite (FileCopy_ctor_refused _ _ _ Hu) in Hctor.
    now injection Hctor as <- <-.
  - rewrite (FileCopy_ctor_granted _ _ _ _ Hf He) in Hctor.
    destruct (o_fstat_err o); [now injection Hctor as <- <- |].
    cbv zeta in Hctor.
    destruct (new_address o w) as [a|] eqn:Ha; [| discriminate].
    destruct (negb _); injection Hctor as <- <-; [reflexivity |].
    unfold FileCopyAllocation.dtor, delete_array.
    cbn [FileCopyAllocation.copied_buffer_].
    rewrite (new_address_not_null _ _ _ Ha).
    destruct w. cbn. now rewrite Z.eqb_refl.
Qed.

Lemma FileCopy_construct_destroy_restores_witness :
  let this := FileCopyAllocation.mk 4242 3 in
  let w' := set_heap boot [mkBlock 4242 (map Some model_bin)] in
  FileCopyAllocation.ctor fair "model.bin" boot =
    FileCopyAllocation.Constructed this w' /\
  FileCopyAllocation.dtor this w' = set_log boot (w_log w').
Proof.
  cbv zeta. split; [reflexivity |].
  apply (FileCopy_construct_destroy_restores fair boot "model.bin").
  reflexivity.
Defined.

(** ** compatibility.h *)

Import Compatibility.

(** The comparison checks partition the pairs of operands: of
    [TFLITE_CHECK_LT], [TFLITE_CHECK_EQ] and [TFLITE_CHECK_GT] exactly one
    passes, and [TFLITE_CHECK_GE], [TFLITE_CHECK_LE], [TFLITE_CHECK_NE] pass
    exactly when [TFLITE_CHECK_LT], [TFLITE_CHECK_GT], [TFLITE_CHECK_EQ]
    abort. *)
Theorem CHECK_comparisons_partition (x y : Z) :
  (TFLITE_CHECK_LT x y = Passed /\ TFLITE_CHECK_EQ x y = Aborted /\
   TFLITE_CHECK_GT x y = Aborted \/
   TFLITE_CHECK_LT x y = Aborted /\ TFLITE_CHECK_EQ x y = Passed /\
   TFLITE_CHECK_GT x y = Aborted \/
   TFLITE_CHECK_LT x y = Aborted /\ TFLITE_CHECK_EQ x y = Aborted /\
   TFLITE_CHECK_GT x y = Passed) /\
  (TFLITE_CHECK_GE x y = Passed <-> TFLITE_CHECK_LT x y = Aborted) /\
  (TFLITE_CHECK_LE x y = Passed <-> TFLITE_CHECK_GT x y = Aborted) /\
  (TFLITE_CHECK_NE x y = Passed <-> TFLITE_CHECK_EQ x y = Aborted).
Proof.
  unfold TFLITE_CHECK_LT, TFLITE_CHECK_EQ, TFLITE_CHECK_GT,
    TFLITE_CHECK_GE, TFLITE_CHECK_LE, TFLITE_CHECK_NE.
  rewrite Z.gtb_ltb, Z.geb_leb.
  destruct (Z.ltb_spec x y), (Z.eqb_spec x y), (Z.ltb_spec y x),
    (Z.leb_spec y x), (Z.leb_spec x y); cbn;
    try lia; (split; [tauto |]); repeat split; intros; congruence.
Qed.

(** A debug check is the always-on check made silent by [NDEBUG]: with
    [NDEBUG] it passes whatever the operands; without, it passes exactly when
    the always-on check does, and fails through [assert] where the always-on
    check aborts. *)
Theorem DCHECK_follows_CHECK (ndebug : bool) (condition : bool) (x y : Z) :
  let pairs :=
    [ (TFLITE_DCHECK ndebug condition, TFLITE_CHECK condition);
      (TFLITE_DCHECK_EQ ndebug x y, TFLITE_CHECK_EQ x y);
      (TFLITE_DCHECK_NE ndebug x y, TFLITE_CHECK_NE x y);
      (TFLITE_DCHECK_GE ndebug x y, TFLITE_CHECK_GE x y);
      (TFLITE_DCHECK_GT ndebug x y, TFLITE_CHECK_GT x y);
      (TFLITE_DCHECK_LE ndebug x y, TFLITE_CHECK_LE x y);
      (TFLITE_DCHECK_LT ndebug x y, TFLITE_CHECK_LT x y) ] in
  Forall (fun p =>
            match snd p with
            | Passed => fst p = Passed
            | Aborted => fst p = (if ndebug then Passed else AssertFailed)
            | AssertFailed => False
            end) pairs.
Proof.
  cbv zeta.
  unfold TFLITE_DCHECK, TFLITE_CHECK,
    TFLITE_DCHECK_EQ, TFLITE_DCHECK_NE, TFLITE_DCHECK_GE,
    TFLITE_DCHECK_GT, TFLITE_DCHECK_LE, TFLITE_DCHECK_LT,
    TFLITE_CHECK_EQ, TFLITE_CHECK_NE, TFLITE_CHECK_GE,
    TFLITE_CHECK_GT, TFLITE_CHECK_LE, TFLITE_CHECK_LT, assert_false.
  repeat constructor; cbn [fst snd];
    match goal with |- context [if ?c then Passed else Aborted] =>
      destruct c end; reflexivity.
Qed.
